(** * PaumIoT: debug_mqtt_packet.py

    A shallow embedding of the MQTT PUBLISH debugging script and the
    properties of the remaining-length check it performs.

    The script is straight-line Python: it indexes a list of byte values,
    slices it from a computed offset, and prints what it finds.  The list
    literal and the topic length are constants in the script; here they are
    the two arguments of every definition, so that the literal of the script
    is one input among the others. *)

From Stdlib.Strings Require Import String Byte.
From Stdlib Require Import DecimalString.
From Stdlib Require Import List Arith ZArith Lia.
Import ListNotations.

(** ** Python values and the two list operations the script uses *)

(** A packet is a Python list of ints written as two hex digits each: a
    list of bytes. *)
Definition packet := list byte.

(** The exceptions the script can raise. Indexing a list past its end is
    the only one: [len], slicing, [+] and [==] on ints never raise, and
    [chr] is defined on every byte value. *)
Inductive exn : Type :=
| IndexError.

Inductive result (A : Type) : Type :=
| Ok (a : A)
| Raise (e : exn).
Arguments Ok {A} a.
Arguments Raise {A} e.

(** [l[i]] for a non-negative index: raises [IndexError] when [i] is not
    below [len(l)]. *)
Definition getitem (l : packet) (i : nat) : result nat :=
  match nth_error l i with
  | Some b => Ok (Byte.to_nat b)
  | None => Raise IndexError
  end.

(** [l[start:]] for a non-negative start: the elements from position
    [start] on; the empty list when [start] is at or past the end. A slice
    never raises. *)
Definition slice_from (l : packet) (start : nat) : packet :=
  skipn start l.

(** ** The variables of the script *)

(** Line 4: the packet literal. *)
Definition mqtt_packet : packet :=
  [ x30; x18;
    x00; x0a;
    x74; x65; x73; x74; x2f; x74; x6f; x70; x69; x63;
    x48; x65; x6c; x6c; x6f; x2c; x20; x57; x6f; x72; x6c; x64; x21 ]%list.

(** Lines 19 and 20. Both are lengths, hence natural numbers: the offsets the
    script computes from them are never negative, and indexing and slicing
    are only needed from a non-negative position. *)
Definition topic_len_field : nat := 2.
Definition topic_len : nat := 10.

(** Line 21: [payload_start = 2 + topic_len_field + topic_len]. *)
Definition payload_start (topic_len : nat) : nat :=
  2 + topic_len_field + topic_len.

(** Line 22: [payload = mqtt_packet[payload_start:]]. *)
Definition payload (mqtt_packet : packet) (topic_len : nat) : packet :=
  slice_from mqtt_packet (payload_start topic_len).

(** Line 27:
    [expected_remaining = topic_len_field + topic_len + len(payload)]. *)
Definition expected_remaining (mqtt_packet : packet) (topic_len : nat) : nat :=
  topic_len_field + topic_len + length (payload mqtt_packet topic_len).

(** ** Output and exceptions

    The script prints as it goes and stops at the first exception. A
    computation takes the lines printed so far and returns them, extended,
    with either a value or the exception raised. *)

Definition stdout := list string.

Definition script (A : Type) : Type := stdout -> stdout * result A.

Definition ret {A : Type} (a : A) : script A :=
  fun out => (out, Ok a).

Definition bind {A B : Type} (c : script A) (k : A -> script B) : script B :=
  fun out =>
    match c out with
    | (out', Ok a) => k a out'
    | (out', Raise e) => (out', Raise e)
    end.

Definition lift {A : Type} (r : result A) : script A :=
  fun out => (out, r).

Definition print (line : string) : script unit :=
  fun out => (out ++ [line], Ok tt).

Declare Scope script_scope.
Delimit Scope script_scope with script.
Notation "x <- c ;; k" := (bind c (fun x => k))
  (at level 61, c at next level, right associativity) : script_scope.
Notation "c ;; k" := (bind c (fun _ => k))
  (at level 61, right associativity) : script_scope.

(** [str(n)] and [str(b)], as an f-string formats an int and a bool. *)
Definition str (n : nat) : string :=
  NilZero.string_of_uint (Nat.to_uint n).

Definition str_bool (b : bool) : string :=
  if b then "True"%string else "False"%string.

(** [''.join(chr(b) for b in payload)]: one character per byte, with the
    byte's value as its code point. *)
Definition join_chr (l : packet) : string :=
  string_of_list_byte l.

(** ** The script

    What the script has computed when it ends, in the record of section 4.1
    of the specification:
    - [declaredRemainingLength] is [mqtt_packet[1]],
    - [computedPayloadLength] is [len(payload)],
    - [computedRemainingLength] is [expected_remaining],
    - [matches] is [expected_remaining == mqtt_packet[1]],
    - [payloadBytes] is [payload]. *)
Record report : Type := mkReport {
  declaredRemainingLength : nat;
  computedPayloadLength : nat;
  computedRemainingLength : nat;
  matches : bool;
  payloadBytes : packet
}.

Local Open Scope script_scope.
Local Open Scope string_scope.

(** Lines 13 to 30, statement by statement. Every [mqtt_packet[1]] of the
    source is an indexing of its own. *)
Definition debug_mqtt_packet (mqtt_packet : packet) (topic_len : nat)
  : script report :=
  print ("Total packet length: " ++ str (length mqtt_packet)) ;;
  print "Header bytes: 2" ;;
  b <- lift (getitem mqtt_packet 1) ;;
  print ("Remaining length field: " ++ str b) ;;
  b1 <- lift (getitem mqtt_packet 1) ;;
  b2 <- lift (getitem mqtt_packet 1) ;;
  print ("Expected packet size: " ++ str (2 + b1) ++ " = " ++ str (2 + b2)) ;;
  let payload := payload mqtt_packet topic_len in
  print ("Payload bytes: " ++ str (length payload)) ;;
  print ("Payload: " ++ join_chr payload) ;;
  let expected_remaining := expected_remaining mqtt_packet topic_len in
  print ("Expected remaining length: " ++ str expected_remaining) ;;
  b3 <- lift (getitem mqtt_packet 1) ;;
  print ("Actual remaining length: " ++ str b3) ;;
  b4 <- lift (getitem mqtt_packet 1) ;;
  print ("Match: " ++ str_bool (expected_remaining =? b4)%nat) ;;
  ret {| declaredRemainingLength := b4;
         computedPayloadLength := length payload;
         computedRemainingLength := expected_remaining;
         matches := (expected_remaining =? b4)%nat;
         payloadBytes := payload |}.

Local Close Scope string_scope.
Local Close Scope script_scope.

(** The validator: one run of the script from an empty output, keeping the
    record (or the exception) and dropping the printed lines. *)
Definition validator (mqtt_packet : packet) (topic_len : nat) : result report :=
  snd (debug_mqtt_packet mqtt_packet topic_len []).

(** The contract of section 4.1: at least the two header bytes, and a topic
    length that leaves the slice inside the packet
    ([topicLength <= length(packet) - 4]). *)
Definition valid_input (mqtt_packet : packet) (topic_len : nat) : Prop :=
  2 + topic_len_field + topic_len <= length mqtt_packet.

(** What the script has in its variables once [mqtt_packet[1]] is known to
    be [d]. *)
Definition report_of (mqtt_packet : packet) (topic_len d : nat) : report :=
  {| declaredRemainingLength := d;
     computedPayloadLength := length (payload mqtt_packet topic_len);
     computedRemainingLength := expected_remaining mqtt_packet topic_len;
     matches := expected_remaining mqtt_packet topic_len =? d;
     payloadBytes := payload mqtt_packet topic_len |}.

(** * Properties *)

(** ** Indexing and slicing *)

Lemma getitem_in_range (l : packet) (i : nat) :
  i < length l -> exists d, getitem l i = Ok d.
Proof.
  intros Hi. unfold getitem.
  destruct (nth_error l i) as [b|] eqn:E.
  - now exists (Byte.to_nat b).
  - apply nth_error_None in E. lia.
Qed.

Lemma getitem_out_of_range (l : packet) (i : nat) :
  length l <= i -> getitem l i = Raise IndexError.
Proof.
  intros Hi. unfold getitem.
  now apply nth_error_None in Hi as ->.
Qed.

Lemma getitem_raise_inv (l : packet) (i : nat) (e : exn) :
  getitem l i = Raise e -> length l <= i.
Proof.
  unfold getitem. destruct (nth_error l i) eqn:E; [discriminate|].
  intros _. now apply nth_error_None.
Qed.

Lemma slice_from_length (l : packet) (start : nat) :
  length (slice_from l start) = length l - start.
Proof. unfold slice_from. apply length_skipn. Qed.

Lemma slice_from_past_end (l : packet) (start : nat) :
  length l <= start -> slice_from l start = [].
Proof. unfold slice_from. apply skipn_all2. Qed.

Lemma payload_length (p : packet) (tl : nat) :
  length (payload p tl) = length p - payload_start tl.
Proof. unfold payload. apply slice_from_length. Qed.

Lemma payload_past_end (p : packet) (tl : nat) :
  length p <= payload_start tl -> payload p tl = [].
Proof. unfold payload. apply slice_from_past_end. Qed.

(** ** One run of the script *)

(** The record of a run depends on the packet and the topic length alone,
    whatever was printed before. *)
Lemma debug_mqtt_packet_result (p : packet) (tl : nat) (out : stdout) :
  snd (debug_mqtt_packet p tl out) =
  match getitem p 1 with
  | Ok d => Ok (report_of p tl d)
  | Raise e => Raise e
  end.
Proof.
  unfold debug_mqtt_packet, bind, lift, print, ret, report_of.
  destruct (getitem p 1); reflexivity.
Qed.

Lemma validator_eq (p : packet) (tl : nat) :
  validator p tl =
  match getitem p 1 with
  | Ok d => Ok (report_of p tl d)
  | Raise e => Raise e
  end.
Proof. apply debug_mqtt_packet_result. Qed.

Lemma validator_header (p : packet) (tl : nat) :
  2 <= length p ->
  exists d, getitem p 1 = Ok d /\ validator p tl = Ok (report_of p tl d).
Proof.
  intros Hlen. destruct (getitem_in_range p 1) as [d Hd]; [lia|].
  exists d. split; [exact Hd|]. now rewrite validator_eq, Hd.
Qed.

Lemma validator_short (p : packet) (tl : nat) :
  length p < 2 -> validator p tl = Raise IndexError.
Proof.
  intros Hlen. rewrite validator_eq, getitem_out_of_range; [reflexivity|lia].
Qed.

Lemma validator_raise_inv (p : packet) (tl : nat) (e : exn) :
  validator p tl = Raise e -> e = IndexError /\ length p < 2.
Proof.
  rewrite validator_eq. destruct (getitem p 1) eqn:E; [discriminate|].
  intros _. split; [now destruct e|].
  apply getitem_raise_inv in E. lia.
Qed.

(** The printed lines of the script as it stands in the repository. *)
Example debug_mqtt_packet_stdout :
  fst (debug_mqtt_packet mqtt_packet topic_len []) =
  [ "Total packet length: 27";
    "Header bytes: 2";
    "Remaining length field: 24";
    "Expected packet size: 26 = 26";
    "Payload bytes: 13";
    "Payload: Hello, World!";
    "Expected remaining length: 25";
    "Actual remaining length: 24";
    "Match: False" ]%string.
Proof. reflexivity. Qed.

(** A packet too short for [mqtt_packet[1]] stops the script after its
    second line. *)
Example debug_mqtt_packet_one_byte :
  debug_mqtt_packet [x30] topic_len [] =
  ([ "Total packet length: 1"; "Header bytes: 2" ]%string, Raise IndexError).
Proof. reflexivity. Qed.

(** * The claims of the specification *)

(** ** The literal of the script *)

(** C1: on the packet literal of the script (27 bytes) with topic length 10,
    the record has declared remaining length 24, computed payload length
    13, computed remaining length 25 and [matches = false]; the payload is
    the 13 bytes of "Hello, World!". *)
Theorem C1_source_literal :
  length mqtt_packet = 27 /\
  topic_len = 10 /\
  validator mqtt_packet topic_len =
  Ok {| declaredRemainingLength := 24;
        computedPayloadLength := 13;
        computedRemainingLength := 25;
        matches := false;
        payloadBytes := list_byte_of_string "Hello, World!" |}.
Proof. repeat split. Qed.

(** ** Lengths *)

(** C2: when [2 + 2 + topicLength <= length(packet)], the validator returns
    a record whose computed payload length is
    [length(packet) - 4 - topicLength], as integers. *)
Theorem C2_payload_length (p : packet) (tl : nat) :
  2 + 2 + tl <= length p ->
  exists r,
    validator p tl = Ok r /\
    Z.of_nat (computedPayloadLength r) =
    (Z.of_nat (length p) - 4 - Z.of_nat tl)%Z.
Proof.
  intros Hv.
  destruct (validator_header p tl) as (d & _ & Hr); [lia|].
  exists (report_of p tl d). split; [exact Hr|].
  cbn [report_of computedPayloadLength].
  rewrite payload_length. unfold payload_start, topic_len_field. lia.
Qed.

Lemma C2_payload_length_witness :
  exists r,
    validator mqtt_packet 10 = Ok r /\
    Z.of_nat (computedPayloadLength r) =
    (Z.of_nat (length mqtt_packet) - 4 - Z.of_nat 10)%Z.
Proof. apply (C2_payload_length mqtt_packet 10). simpl. lia. Defined.

(** C7: for a packet of at least 4 bytes and topic length 0, the computed
    payload length is [length(packet) - 4]. *)
Theorem C7_empty_topic (p : packet) :
  4 <= length p ->
  exists r,
    validator p 0 = Ok r /\
    Z.of_nat (computedPayloadLength r) = (Z.of_nat (length p) - 4)%Z.
Proof.
  intros Hv.
  destruct (validator_header p 0) as (d & _ & Hr); [lia|].
  exists (report_of p 0 d). split; [exact Hr|].
  cbn [report_of computedPayloadLength].
  rewrite payload_length. unfold payload_start, topic_len_field. lia.
Qed.

Lemma C7_empty_topic_witness :
  exists r,
    validator mqtt_packet 0 = Ok r /\
    Z.of_nat (computedPayloadLength r) =
    (Z.of_nat (length mqtt_packet) - 4)%Z.
Proof. apply (C7_empty_topic mqtt_packet). simpl. lia. Defined.

(** C6: when [2 + topicLengthFieldSize + topicLength] is exactly the length
    of the packet, the payload is empty and the computed payload length is
    0. *)
Theorem C6_payload_empty_at_end (p : packet) (tl : nat) :
  2 + topic_len_field + tl = length p ->
  exists r,
    validator p tl = Ok r /\
    payloadBytes r = [] /\
    computedPayloadLength r = 0.
Proof.
  intros Hv. unfold topic_len_field in Hv.
  destruct (validator_header p tl) as (d & _ & Hr); [lia|].
  exists (report_of p tl d). split; [exact Hr|].
  cbn [report_of payloadBytes computedPayloadLength].
  rewrite payload_past_end; [now split|].
  unfold payload_start, topic_len_field. lia.
Qed.

Lemma C6_payload_empty_at_end_witness :
  exists r,
    validator (firstn 14 mqtt_packet) 10 = Ok r /\
    payloadBytes r = [] /\
    computedPayloadLength r = 0.
Proof.
  apply (C6_payload_empty_at_end (firstn 14 mqtt_packet) 10). reflexivity.
Defined.

(** C9: for a valid input the computed remaining length is
    [length(packet) - 2], so it is the same for every valid topic length. *)
Theorem C9_remaining_is_length_minus_2 (p : packet) (tl : nat) :
  2 + topic_len_field + tl <= length p ->
  exists r,
    validator p tl = Ok r /\
    Z.of_nat (computedRemainingLength r) = (Z.of_nat (length p) - 2)%Z /\
    forall tl', 2 + topic_len_field + tl' <= length p ->
      exists r', validator p tl' = Ok r' /\
                 computedRemainingLength r' = computedRemainingLength r.
Proof.
  assert (Hcrl : forall t, 2 + topic_len_field + t <= length p ->
                 expected_remaining p t = length p - 2).
  { intros t Ht. unfold expected_remaining. rewrite payload_length.
    unfold payload_start, topic_len_field in *. lia. }
  intros Hv.
  destruct (validator_header p tl) as (d & Hd & Hr);
    [unfold topic_len_field in Hv; lia|].
  exists (report_of p tl d). split; [exact Hr|].
  cbn [report_of computedRemainingLength]. split.
  - rewrite (Hcrl tl Hv). unfold topic_len_field in Hv. lia.
  - intros tl' Hv'. exists (report_of p tl' d). split.
    + now rewrite validator_eq, Hd.
    + cbn [report_of computedRemainingLength].
      now rewrite (Hcrl tl' Hv'), (Hcrl tl Hv).
Qed.

Lemma C9_remaining_is_length_minus_2_witness :
  exists r,
    validator mqtt_packet 10 = Ok r /\
    Z.of_nat (computedRemainingLength r) =
    (Z.of_nat (length mqtt_packet) - 2)%Z /\
    forall tl', 2 + topic_len_field + tl' <= length mqtt_packet ->
      exists r', validator mqtt_packet tl' = Ok r' /\
                 computedRemainingLength r' = computedRemainingLength r.
Proof.
  apply (C9_remaining_is_length_minus_2 mqtt_packet 10).
  unfold topic_len_field. simpl. lia.
Defined.

(** ** The comparison *)

(** C3: for a valid input the validator returns a record whose declared
    remaining length is [packet[1]] and whose [matches] is [true] exactly
    when that value equals
    [topicLengthFieldSize + topicLength + computedPayloadLength]. *)
Theorem C3_matches_iff (p : packet) (tl : nat) :
  valid_input p tl ->
  exists r,
    validator p tl = Ok r /\
    getitem p 1 = Ok (declaredRemainingLength r) /\
    (matches r = true <->
     declaredRemainingLength r =
     topic_len_field + tl + computedPayloadLength r).
Proof.
  unfold valid_input, topic_len_field. intros Hv.
  destruct (validator_header p tl) as (d & Hd & Hr); [lia|].
  exists (report_of p tl d). split; [exact Hr|]. split; [exact Hd|].
  cbn [report_of matches declaredRemainingLength computedPayloadLength].
  unfold expected_remaining, topic_len_field.
  rewrite Nat.eqb_eq. split; intros H; now rewrite H.
Qed.

Lemma C3_matches_iff_witness :
  exists r,
    validator mqtt_packet 10 = Ok r /\
    getitem mqtt_packet 1 = Ok (declaredRemainingLength r) /\
    (matches r = true <->
     declaredRemainingLength r =
     topic_len_field + 10 + computedPayloadLength r).
Proof.
  apply (C3_matches_iff mqtt_packet 10).
  unfold valid_input, topic_len_field. simpl. lia.
Defined.

(** C5: for a valid input whose declared remaining length [packet[1]]
    differs from the computed one, the validator raises nothing: it returns
    a record, and that record has [matches = false]. *)
Theorem C5_mismatch_is_a_result (p : packet) (tl : nat) :
  valid_input p tl ->
  getitem p 1 <> Ok (expected_remaining p tl) ->
  exists r,
    validator p tl = Ok r /\
    declaredRemainingLength r <> computedRemainingLength r /\
    matches r = false.
Proof.
  unfold valid_input, topic_len_field. intros Hv Hne.
  destruct (validator_header p tl) as (d & Hd & Hr); [lia|].
  exists (report_of p tl d). split; [exact Hr|].
  cbn [report_of matches declaredRemainingLength computedRemainingLength].
  assert (Hd' : d <> expected_remaining p tl) by congruence.
  split; [exact Hd'|]. apply Nat.eqb_neq. congruence.
Qed.

Lemma C5_mismatch_is_a_result_witness :
  exists r,
    validator mqtt_packet 10 = Ok r /\
    declaredRemainingLength r <> computedRemainingLength r /\
    matches r = false.
Proof.
  apply (C5_mismatch_is_a_result mqtt_packet 10).
  - unfold valid_input, topic_len_field. simpl. lia.
  - vm_compute. discriminate.
Defined.

(** ** Failure *)

(** Against C4 as stated: the literal of the script with topic length 30
    has [2 + 2 + 30 > 27], and the validator returns a record with an empty
    payload instead of failing. *)
Lemma C4_counterexample :
  2 + topic_len_field + 30 > length mqtt_packet /\
  validator mqtt_packet 30 =
  Ok {| declaredRemainingLength := 24;
        computedPayloadLength := 0;
        computedRemainingLength := 32;
        matches := false;
        payloadBytes := [] |} /\
  ~ (exists e, validator mqtt_packet 30 = Raise e).
Proof.
  split; [unfold topic_len_field; simpl; lia|].
  split; [reflexivity|].
  intros [e He]. vm_compute in He. discriminate He.
Qed.

(** C4, amended: the validator fails exactly when the packet has fewer
    than 2 bytes, with [IndexError], and in no other way; on a packet of at
    least 2 bytes a topic length with
    [2 + topicLengthFieldSize + topicLength > length(packet)] gives a record
    with an empty payload, computed payload length 0 and computed remaining
    length [topicLengthFieldSize + topicLength]. *)
Theorem C4_only_failure_is_short_packet (p : packet) (tl : nat) :
  (forall e, validator p tl = Raise e <-> e = IndexError /\ length p < 2) /\
  (2 <= length p ->
   2 + topic_len_field + tl > length p ->
   exists r,
     validator p tl = Ok r /\
     payloadBytes r = [] /\
     computedPayloadLength r = 0 /\
     computedRemainingLength r = topic_len_field + tl).
Proof.
  split.
  - intros e. split.
    + apply validator_raise_inv.
    + intros [-> Hlen]. now apply validator_short.
  - intros Hlen Hout.
    destruct (validator_header p tl Hlen) as (d & _ & Hr).
    exists (report_of p tl d). split; [exact Hr|].
    cbn [report_of payloadBytes computedPayloadLength computedRemainingLength].
    unfold expected_remaining.
    rewrite payload_past_end; [cbn [length]; repeat split; lia|].
    unfold payload_start, topic_len_field in *. lia.
Qed.

Lemma C4_only_failure_is_short_packet_witness :
  exists r,
    validator mqtt_packet 30 = Ok r /\
    payloadBytes r = [] /\
    computedPayloadLength r = 0 /\
    computedRemainingLength r = topic_len_field + 30.
Proof.
  apply (C4_only_failure_is_short_packet mqtt_packet 30).
  - simpl. lia.
  - unfold topic_len_field. simpl. lia.
Defined.

(** Against C10 as stated: on the empty packet [mqtt_packet[1]] raises
    [IndexError], so the computation returns no record. *)
Lemma C10_counterexample :
  validator [] topic_len = Raise IndexError /\
  ~ (exists r, validator [] topic_len = Ok r).
Proof.
  split; [reflexivity|].
  intros [r Hr]. vm_compute in Hr. discriminate Hr.
Qed.

(** C10, amended: on every packet of at least 2 bytes the computation
    returns a record, for every topic length; when
    [2 + topicLengthFieldSize + topicLength > length(packet)] the slice at
    [payload_start] is the empty list. *)
Theorem C10_total_on_headed_packets (p : packet) (tl : nat) :
  2 <= length p ->
  exists r,
    validator p tl = Ok r /\
    payloadBytes r = slice_from p (payload_start tl) /\
    (2 + topic_len_field + tl > length p ->
     slice_from p (payload_start tl) = []).
Proof.
  intros Hlen.
  destruct (validator_header p tl Hlen) as (d & _ & Hr).
  exists (report_of p tl d). split; [exact Hr|]. split; [reflexivity|].
  intros Hout. apply slice_from_past_end.
  unfold payload_start, topic_len_field in *. lia.
Qed.

Lemma C10_total_on_headed_packets_witness :
  exists r,
    validator [x30; x18] 10 = Ok r /\
    payloadBytes r = slice_from [x30; x18] (payload_start 10) /\
    (2 + topic_len_field + 10 > length [x30; x18] ->
     slice_from [x30; x18] (payload_start 10) = []).
Proof.
  apply (C10_total_on_headed_packets [x30; x18] 10). simpl. lia.
Defined.

(** ** Determinism *)


(** * Further properties of the script *)

(** ** What a run prints *)

(** The nine lines of a run that gets past [mqtt_packet[1]], read [d]. *)
Lemma debug_mqtt_packet_run (p : packet) (tl d : nat) (out : stdout) :
  getitem p 1 = Ok d ->
  debug_mqtt_packet p tl out =
  (out ++
   [ "Total packet length: " ++ str (length p);
     "Header bytes: 2";
     "Remaining length field: " ++ str d;
     "Expected packet size: " ++ str (2 + d) ++ " = " ++ str (2 + d);
     "Payload bytes: " ++ str (length (payload p tl));
     "Payload: " ++ join_chr (payload p tl);
     "Expected remaining length: " ++ str (expected_remaining p tl);
     "Actual remaining length: " ++ str d;
     "Match: " ++ str_bool (expected_remaining p tl =? d)%nat ]%string,
   Ok (report_of p tl d)).
Proof.
  intros Hd. unfold debug_mqtt_packet, bind, lift, print, ret, report_of.
  rewrite Hd. repeat rewrite <- app_assoc. reflexivity.
Qed.

(** The two lines of a run stopped by [mqtt_packet[1]]. *)
Lemma debug_mqtt_packet_stop (p : packet) (tl : nat) (out : stdout) :
  getitem p 1 = Raise IndexError ->
  debug_mqtt_packet p tl out =
  (out ++ [ "Total packet length: " ++ str (length p);
            "Header bytes: 2" ]%string,
   Raise IndexError).
Proof.
  intros Hd. unfold debug_mqtt_packet, bind, lift, print, ret.
  rewrite Hd. repeat rewrite <- app_assoc. reflexivity.
Qed.


(** X2: on a packet of fewer than 2 bytes the script prints the total
    length and the header size, then stops with [IndexError]: none of the
    lines about the remaining length, the payload or the match is printed. *)
Theorem short_packet_output (p : packet) (tl : nat) (out : stdout) :
  length p < 2 ->
  debug_mqtt_packet p tl out =
  (out ++ [ "Total packet length: " ++ str (length p);
            "Header bytes: 2" ]%string,
   Raise IndexError).
Proof.
  intros Hlen. apply debug_mqtt_packet_stop.
  apply getitem_out_of_range. lia.
Qed.

Lemma short_packet_output_witness :
  debug_mqtt_packet [x30] 10 [] =
  ([] ++ [ "Total packet length: " ++ str (length [x30]);
           "Header bytes: 2" ]%string,
   Raise IndexError).
Proof. apply (short_packet_output [x30] 10 []). simpl. lia. Defined.

(** X3: the last line a completed run prints is the verdict of the record
    it ends with: "Match: True" when [matches] holds, "Match: False" when
    it does not. *)
Theorem last_line_is_the_verdict (p : packet) (tl : nat) (out : stdout) :
  2 <= length p ->
  exists r,
    snd (debug_mqtt_packet p tl out) = Ok r /\
    last (fst (debug_mqtt_packet p tl out)) EmptyString =
    if matches r then "Match: True"%string else "Match: False"%string.
Proof.
  intros Hlen. destruct (getitem_in_range p 1) as [d Hd]; [lia|].
  rewrite (debug_mqtt_packet_run p tl d out Hd).
  exists (report_of p tl d). split; [reflexivity|].
  cbn [fst report_of matches].
  change (out ++ ?l) with (out ++ firstn 8 l ++ skipn 8 l).
  cbn [firstn skipn]. rewrite app_assoc, last_last.
  now destruct (expected_remaining p tl =? d).
Qed.

Lemma last_line_is_the_verdict_witness :
  exists r,
    snd (debug_mqtt_packet mqtt_packet 10 []) = Ok r /\
    last (fst (debug_mqtt_packet mqtt_packet 10 [])) EmptyString =
    if matches r then "Match: True"%string else "Match: False"%string.
Proof. apply (last_line_is_the_verdict mqtt_packet 10 []). simpl. lia. Defined.

(** ** The check *)

Lemma expected_remaining_valid (p : packet) (tl : nat) :
  valid_input p tl -> expected_remaining p tl = length p - 2.
Proof.
  unfold valid_input, expected_remaining. rewrite payload_length.
  unfold payload_start, topic_len_field. lia.
Qed.

(** X4: for a valid input the verdict of the script is the check of the
    fixed header against the whole packet: [matches] is [true] exactly when
    the "expected packet size" of line 16, [2 + mqtt_packet[1]], is the
    length of the packet. *)
Theorem matches_iff_packet_size (p : packet) (tl : nat) :
  valid_input p tl ->
  exists r,
    validator p tl = Ok r /\
    (matches r = true <-> 2 + declaredRemainingLength r = length p).
Proof.
  intros Hv. pose proof Hv as Hlen. unfold valid_input, topic_len_field in Hlen.
  destruct (validator_header p tl) as (d & _ & Hr); [lia|].
  exists (report_of p tl d). split; [exact Hr|].
  cbn [report_of matches declaredRemainingLength].
  rewrite (expected_remaining_valid p tl Hv), Nat.eqb_eq. lia.
Qed.

Lemma matches_iff_packet_size_witness :
  exists r,
    validator mqtt_packet 10 = Ok r /\
    (matches r = true <-> 2 + declaredRemainingLength r = length mqtt_packet).
Proof.
  apply (matches_iff_packet_size mqtt_packet 10).
  unfold valid_input, topic_len_field. simpl. lia.
Defined.

(** X5: the computed remaining length never undercounts. It is the larger
    of [len(mqtt_packet) - 2] and [topic_len_field + topic_len]: the true
    remainder while the topic fits in the packet, and the topic field alone
    once it does not. *)
Theorem expected_remaining_closed_form (p : packet) (tl : nat) :
  Z.of_nat (expected_remaining p tl) =
  Z.max (Z.of_nat (length p) - 2) (Z.of_nat topic_len_field + Z.of_nat tl).
Proof.
  unfold expected_remaining. rewrite payload_length.
  unfold payload_start, topic_len_field. lia.
Qed.

(** X6: the remaining length is read from one byte, so it is at most 255:
    a valid input whose packet is longer than 257 bytes never matches. *)
Theorem long_packet_never_matches (p : packet) (tl : nat) :
  valid_input p tl ->
  257 < length p ->
  exists r,
    validator p tl = Ok r /\
    declaredRemainingLength r <= 255 /\
    matches r = false.
Proof.
  intros Hv Hlong.
  assert (Hb : forall d, getitem p 1 = Ok d -> d <= 255).
  { unfold getitem. intros d. destruct (nth_error p 1) as [b|]; [|discriminate].
    intros [= <-]. apply Byte.to_nat_bounded. }
  destruct (validator_header p tl) as (d & Hd & Hr); [lia|].
  exists (report_of p tl d). split; [exact Hr|].
  cbn [report_of matches declaredRemainingLength].
  specialize (Hb d Hd). split; [exact Hb|].
  rewrite (expected_remaining_valid p tl Hv). apply Nat.eqb_neq. lia.
Qed.

Lemma long_packet_never_matches_witness :
  exists r,
    validator (x30 :: xff :: repeat x00 256) 0 = Ok r /\
    declaredRemainingLength r <= 255 /\
    matches r = false.
Proof.
  apply (long_packet_never_matches (x30 :: xff :: repeat x00 256) 0).
  - unfold valid_input, topic_len_field. simpl. lia.
  - simpl. lia.
Defined.

(** ** The payload *)

(** X7: on a packet laid out as the comments of the literal describe it
    (control byte, remaining length, two bytes of topic length, the topic,
    the payload), run with the length of that topic, the script recovers
    the payload: the record carries exactly the bytes after the topic, and
    [matches] compares the remaining-length byte with
    [2 + len(topic) + len(payload)]. *)
Theorem publish_layout_payload
  (control remaining hi lo : byte) (topic body : packet) :
  validator ([control; remaining; hi; lo] ++ topic ++ body) (length topic) =
  Ok {| declaredRemainingLength := Byte.to_nat remaining;
        computedPayloadLength := length body;
        computedRemainingLength := 2 + length topic + length body;
        matches := 2 + length topic + length body =? Byte.to_nat remaining;
        payloadBytes := body |}.
Proof.
  rewrite validator_eq. cbn [getitem nth_error app].
  assert (Hp : payload (control :: remaining :: hi :: lo :: topic ++ body)
                       (length topic) = body).
  { unfold payload, slice_from, payload_start, topic_len_field.
    cbn [Nat.add skipn]. rewrite skipn_app, skipn_all, Nat.sub_diag.
    reflexivity. }
  unfold report_of, expected_remaining. rewrite Hp. reflexivity.
Qed.

(** X8: the payload is the tail of the packet: the bytes before
    [payload_start] followed by the payload are the packet again, and a
    topic longer by [k] bytes drops the first [k] bytes of the payload. *)
Theorem payload_is_suffix (p : packet) (tl : nat) :
  firstn (payload_start tl) p ++ payload p tl = p /\
  forall k, payload p (tl + k) = skipn k (payload p tl).
Proof.
  unfold payload, slice_from. split.
  - apply firstn_skipn.
  - intros k. rewrite skipn_skipn. f_equal.
    unfold payload_start. lia.
Qed.


